(** * sample_c.c: [main], [calculate], [helper], [display]

    A shallow embedding of [examples/sample_c.c] and the properties of its
    four functions.

    - A C [int] is a [Z] in the range [INT_MIN .. INT_MAX] of a 32-bit
      two's-complement machine.  The results of [+] and [*] are reduced
      with [CInt.wrap]: signed overflow, which ISO C leaves undefined, is
      given its usual wrap-around meaning (modulo [2^32]).
    - The process state a function can change is the text written to the
      standard output stream so far.  A call either returns a value or
      stops the process at one of the five [assert] statements.
    - [assert] is the macro of <assert.h> with [NDEBUG] not defined, as the
      file is written: a false condition ends the run.  The diagnostic it
      puts on the standard error stream is not modelled.
    - What [printf] writes is appended to the standard output stream at
      once; the buffering of the stream is not modelled. *)

From Stdlib Require Import ZArith String Ascii Lia Bool.
From Stdlib Require Import DecimalString DecimalPos DecimalZ.

Local Open Scope Z_scope.
Local Open Scope string_scope.

(** ** The machine integers *)

Module CInt.

Definition INT_MAX : Z := 2147483647.
Definition INT_MIN : Z := -2147483648.

(** The values of type [int]. *)
Definition in_range (z : Z) : Prop := INT_MIN <= z <= INT_MAX.

(** Reduction of a mathematical result to the 32-bit signed range. *)
Definition wrap (z : Z) : Z := (z + 2 ^ 31) mod 2 ^ 32 - 2 ^ 31.

(** [x + y] and [x * y] on [int]. *)
Definition add (x y : Z) : Z := wrap (x + y).
Definition mul (x y : Z) : Z := wrap (x * y).

End CInt.

(** ** Runs of the process *)

(** The [assert] statements of the file, named by function and line. *)
Inductive assertion : Type :=
| main_L22        (* assert(result > 0);   in main      *)
| calculate_L33   (* assert(x > 0);        in calculate *)
| calculate_L38   (* assert(result > x);   in calculate *)
| helper_L51      (* assert(result > x);   in helper    *)
| display_L63.    (* assert(value >= 0);   in display   *)

(** How a call ends: with a value, or with the process aborted by the
    assertion that failed. *)
Inductive outcome (A : Type) : Type :=
| Returned (a : A)
| Aborted (failed : assertion).

Arguments Returned {A} a.
Arguments Aborted {A} failed.

(** A computation takes the standard output written so far and gives the
    standard output afterwards together with its outcome. *)
Definition run (A : Type) : Type := string -> string * outcome A.

Definition ret {A : Type} (a : A) : run A :=
  fun out => (out, Returned a).

Definition bind {A B : Type} (m : run A) (k : A -> run B) : run B :=
  fun out =>
    match m out with
    | (out', Returned a) => k a out'
    | (out', Aborted f) => (out', Aborted f)
    end.

Notation "x <- m ;; k" := (bind m (fun x => k))
  (at level 61, m at next level, right associativity).
Notation "m ;; k" := (bind m (fun _ => k))
  (at level 61, right associativity).

(** [assert(cond)] at the place [site]. *)
Definition assert (site : assertion) (cond : bool) : run unit :=
  fun out => (out, if cond then Returned tt else Aborted site).

(** The line feed character ['\n']. *)
Definition newline : string := String (ascii_of_nat 10) EmptyString.

(** The conversion [%d]: decimal digits, with a leading [-] below zero. *)
Definition format_d (value : Z) : string :=
  NilZero.string_of_int (Z.to_int value).

(** [printf("Result: %d\n", value)]. *)
Definition printf_Result (value : Z) : run unit :=
  fun out => (out ++ "Result: " ++ format_d value ++ newline, Returned tt).

(** ** The program *)

(** <<
    int helper(int x) {
        int result = x + 5;
        assert(result > x);
        return result;
    }
    >> *)
Definition helper (x : Z) : run Z :=
  let result := CInt.add x 5 in
  assert helper_L51 (result >? x) ;;
  ret result.

(** <<
    int calculate(int x) {
        assert(x > 0);
        int temp = helper(x);
        int result = temp * 2;
        assert(result > x);
        return result;
    }
    >> *)
Definition calculate (x : Z) : run Z :=
  assert calculate_L33 (x >? 0) ;;
  temp <- helper x ;;
  let result := CInt.mul temp 2 in
  assert calculate_L38 (result >? x) ;;
  ret result.

(** <<
    void display(int value) {
        printf("Result: %d\n", value);
        assert(value >= 0);
    }
    >> *)
Definition display (value : Z) : run unit :=
  printf_Result value ;;
  assert display_L63 (value >=? 0).

(** <<
    int main() {
        int result = calculate(10);
        display(result);
        assert(result > 0);
        return 0;
    }
    >> *)
Definition main : run Z :=
  result <- calculate 10 ;;
  display result ;;
  assert main_L22 (result >? 0) ;;
  ret 0.

(** The largest argument whose doubled [helper] value still fits an [int]:
    [(x + 5) * 2 <= INT_MAX] exactly when [x <= calculate_max]. *)
Definition calculate_max : Z := 1073741818.

(** The largest argument of [helper] for which [x + 5] fits an [int]. *)
Definition helper_max : Z := CInt.INT_MAX - 5.


(** * Properties *)

(** ** Arithmetic on [int] *)

Ltac int_consts :=
  unfold helper_max, calculate_max, CInt.in_range, CInt.INT_MAX, CInt.INT_MIN in *.

Lemma wrap_in_range (z : Z) : CInt.in_range (CInt.wrap z).
Proof.
  unfold CInt.wrap. int_consts.
  change (2 ^ 31) with 2147483648. change (2 ^ 32) with 4294967296.
  pose proof (Z.mod_pos_bound (z + 2147483648) 4294967296). lia.
Qed.

Lemma wrap_small (z : Z) : CInt.in_range z -> CInt.wrap z = z.
Proof.
  unfold CInt.wrap. int_consts.
  change (2 ^ 31) with 2147483648. change (2 ^ 32) with 4294967296.
  intros H. rewrite Z.mod_small by lia. lia.
Qed.

Lemma wrap_above (z : Z) :
  CInt.INT_MAX < z <= CInt.INT_MAX + 2 ^ 32 -> CInt.wrap z = z - 2 ^ 32.
Proof.
  unfold CInt.wrap. int_consts.
  change (2 ^ 31) with 2147483648. change (2 ^ 32) with 4294967296.
  intros H.
  replace (z + 2147483648) with ((z - 2147483648) + 1 * 4294967296) by lia.
  rewrite Z.mod_add by lia. rewrite Z.mod_small by lia. lia.
Qed.

Lemma gtb_true (a b : Z) : b < a -> (a >? b) = true.
Proof. intros H. apply Z.gtb_lt. exact H. Qed.

Lemma gtb_false (a b : Z) : a <= b -> (a >? b) = false.
Proof. intros H. rewrite Z.gtb_ltb. apply Z.ltb_ge. exact H. Qed.

Lemma geb_false (a b : Z) : a < b -> (a >=? b) = false.
Proof. intros H. rewrite Z.geb_leb. apply Z.leb_gt. exact H. Qed.

Lemma geb_true (a b : Z) : b <= a -> (a >=? b) = true.
Proof. intros H. rewrite Z.geb_leb. apply Z.leb_le. exact H. Qed.

(** ** The outcomes of [helper] *)

Lemma helper_returns (x : Z) (out : string) :
  CInt.INT_MIN <= x <= helper_max ->
  helper x out = (out, Returned (x + 5)).
Proof.
  intros H. unfold helper, bind, assert, ret, CInt.add.
  rewrite wrap_small by (int_consts; lia).
  rewrite gtb_true by lia. reflexivity.
Qed.

Lemma helper_overflows (x : Z) (out : string) :
  helper_max < x <= CInt.INT_MAX ->
  helper x out = (out, Aborted helper_L51).
Proof.
  intros H. unfold helper, bind, assert, ret, CInt.add.
  rewrite wrap_above by (int_consts; lia).
  rewrite gtb_false by (change (2 ^ 32) with 4294967296; lia). reflexivity.
Qed.

(** ** The outcomes of [calculate] *)

Lemma calculate_rejects (x : Z) (out : string) :
  x <= 0 -> calculate x out = (out, Aborted calculate_L33).
Proof.
  intros H. unfold calculate, bind, assert.
  rewrite gtb_false by lia. reflexivity.
Qed.

Lemma calculate_returns (x : Z) (out : string) :
  0 < x <= calculate_max ->
  calculate x out = (out, Returned ((x + 5) * 2)).
Proof.
  intros H. unfold calculate, bind at 1 2, assert at 1.
  rewrite gtb_true by lia.
  rewrite helper_returns by (int_consts; lia).
  unfold bind, assert, ret, CInt.mul.
  rewrite wrap_small by (int_consts; lia).
  rewrite gtb_true by lia. reflexivity.
Qed.

Lemma calculate_overflows (x : Z) (out : string) :
  calculate_max < x <= helper_max ->
  calculate x out = (out, Aborted calculate_L38).
Proof.
  intros H. unfold calculate, bind at 1 2, assert at 1.
  rewrite gtb_true by (int_consts; lia).
  rewrite helper_returns by (int_consts; lia).
  unfold bind, assert, ret, CInt.mul.
  rewrite wrap_above by (int_consts; change (2 ^ 32) with 4294967296; lia).
  rewrite gtb_false by (int_consts; change (2 ^ 32) with 4294967296; lia).
  reflexivity.
Qed.

Lemma calculate_helper_overflows (x : Z) (out : string) :
  helper_max < x <= CInt.INT_MAX ->
  calculate x out = (out, Aborted helper_L51).
Proof.
  intros H. unfold calculate, bind at 1 2, assert at 1.
  rewrite gtb_true by (int_consts; lia).
  rewrite helper_overflows by exact H. reflexivity.
Qed.

(** Every call of [helper] and of [calculate] leaves the standard output
    as it found it, whatever its outcome. *)
Lemma helper_silent (x : Z) (out : string) : fst (helper x out) = out.
Proof.
  unfold helper, bind, assert, ret.
  destruct (CInt.add x 5 >? x); reflexivity.
Qed.

Lemma helper_outcome_fixed (x : Z) (out1 out2 : string) :
  snd (helper x out1) = snd (helper x out2).
Proof.
  unfold helper, bind, assert, ret.
  destruct (CInt.add x 5 >? x); reflexivity.
Qed.

(** The three ways a call of [calculate] on an [int] can end. *)
Lemma calculate_cases (x : Z) (out : string) :
  CInt.in_range x ->
  (x <= 0 /\ calculate x out = (out, Aborted calculate_L33)) \/
  (0 < x <= calculate_max /\ calculate x out = (out, Returned ((x + 5) * 2))) \/
  (calculate_max < x <= helper_max /\ calculate x out = (out, Aborted calculate_L38)) \/
  (helper_max < x /\ calculate x out = (out, Aborted helper_L51)).
Proof.
  intros Hx.
  destruct (Z_le_gt_dec x 0) as [H0 | H0].
  { left. split; [exact H0 | apply calculate_rejects; exact H0]. }
  destruct (Z_le_gt_dec x calculate_max) as [H1 | H1].
  { right; left. split; [lia | apply calculate_returns; lia]. }
  destruct (Z_le_gt_dec x helper_max) as [H2 | H2].
  { right; right; left. split; [lia | apply calculate_overflows; lia]. }
  right; right; right. split; [lia |].
  apply calculate_helper_overflows. int_consts. lia.
Qed.

(** [calculate] returns on the arguments from [1] to [calculate_max] and on
    no other [int]: a wrapped sum or product is never handed back. *)
Lemma calculate_returned_value (x r : Z) (out out' : string) :
  CInt.in_range x ->
  calculate x out = (out', Returned r) ->
  0 < x <= calculate_max /\ r = (x + 5) * 2 /\ out' = out.
Proof.
  intros Hx E.
  destruct (calculate_cases x out Hx)
    as [[H C] | [[H C] | [[H C] | [H C]]]];
    rewrite C in E; try discriminate E.
  inversion E; subst. split; [exact H |]. split; reflexivity.
Qed.

(** ** The outcomes of [display] *)

Lemma display_returns (value : Z) (out : string) :
  0 <= value ->
  display value out
    = (out ++ "Result: " ++ format_d value ++ newline, Returned tt).
Proof.
  intros H. unfold display, bind, printf_Result, assert.
  rewrite geb_true by exact H. reflexivity.
Qed.

Example display_30 :
  display 30 "" = ("Result: 30" ++ newline, Returned tt).
Proof. reflexivity. Qed.

Example format_d_samples :
  format_d 0 = "0" /\ format_d 30 = "30" /\ format_d (-1) = "-1" /\
  format_d CInt.INT_MIN = "-2147483648".
Proof. repeat split. Qed.

(** * The claims *)

(** ** helper *)

(** C3 (as amended).  For every [int] [x] with [x + 5 <= INT_MAX], that is
    [INT_MIN <= x <= INT_MAX - 5], [helper x] returns [x + 5] and leaves
    the standard output unchanged. *)
Theorem helper_value (x : Z) (out : string)
  (Hx : CInt.INT_MIN <= x <= helper_max) :
  helper x out = (out, Returned (x + 5)).
Proof. apply helper_returns. exact Hx. Qed.

Lemma helper_value_witness :
  CInt.INT_MIN <= 10 <= helper_max /\ helper 10 "" = ("", Returned 15).
Proof.
  split.
  - int_consts. lia.
  - apply (helper_value 10 ""). int_consts. lia.
Defined.

(** C3, the claim as written fails: [INT_MAX - 4] is an [int], and on it
    [x + 5] leaves the range, the wrapped sum is below [x] and [helper]
    stops at its assertion instead of returning [x + 5]. *)
Lemma helper_value_fails_near_INT_MAX :
  CInt.in_range 2147483643 /\
  helper 2147483643 "" = ("", Aborted helper_L51) /\
  helper 2147483643 "" <> ("", Returned (2147483643 + 5)).
Proof.
  split; [int_consts; lia |].
  split; [reflexivity | discriminate].
Qed.

(** C5.  On every [int] [x], a value [helper] returns exceeds [x]; when
    [x + 5] fits an [int] the assertion holds and [x + 5] is returned; and
    [helper] stops only at its own assertion and only when [x + 5]
    overflows, in which case the wrapped sum does fail the assertion. *)
Theorem helper_postcondition (x : Z) (out : string)
  (Hx : CInt.in_range x) :
  (forall out' r, helper x out = (out', Returned r) -> r > x) /\
  (x + 5 <= CInt.INT_MAX -> helper x out = (out, Returned (x + 5))) /\
  (forall out' site, helper x out = (out', Aborted site) ->
     site = helper_L51 /\ CInt.INT_MAX < x + 5) /\
  (CInt.INT_MAX < x + 5 -> helper x out = (out, Aborted helper_L51)).
Proof.
  destruct (Z_le_gt_dec x helper_max) as [H | H].
  - rewrite helper_returns by (int_consts; lia).
    split; [| split; [| split]].
    + intros out' r E. inversion E. lia.
    + intros _. reflexivity.
    + intros out' site E. discriminate E.
    + int_consts. lia.
  - rewrite helper_overflows by (int_consts; lia).
    split; [| split; [| split]].
    + intros out' r E. discriminate E.
    + int_consts. lia.
    + intros out' site E. inversion E. split; [reflexivity |].
      int_consts. lia.
    + intros _. reflexivity.
Qed.

Lemma helper_postcondition_witness :
  CInt.in_range 10 /\ helper 10 "" = ("", Returned 15).
Proof.
  assert (H : CInt.in_range 10) by (int_consts; lia).
  split; [exact H |].
  destruct (helper_postcondition 10 "" H) as (_ & Hret & _).
  apply Hret. int_consts. lia.
Defined.

(** ** calculate *)

(** C1 (as amended).  For every [x] with [0 < x <= 1073741818], the
    arguments on which [(x + 5) * 2] fits an [int], [helper x] returns
    [x + 5] and [calculate x] returns its double [(x + 5) * 2]. *)
Theorem calculate_value (x : Z) (out : string)
  (Hx : 0 < x <= calculate_max) :
  helper x out = (out, Returned (x + 5)) /\
  calculate x out = (out, Returned ((x + 5) * 2)).
Proof.
  split.
  - apply helper_returns. int_consts. lia.
  - apply calculate_returns. exact Hx.
Qed.

Lemma calculate_value_witness :
  0 < 10 <= calculate_max /\
  helper 10 "" = ("", Returned 15) /\
  calculate 10 "" = ("", Returned 30).
Proof.
  split.
  - int_consts. lia.
  - apply (calculate_value 10 ""). int_consts. lia.
Defined.

(** C1, the claim as written fails: [1073741819] is a positive [int], but
    [calculate] does not return [(1073741819 + 5) * 2 = 2147483648], which
    is no [int]; the product wraps to [INT_MIN] and the run stops. *)
Lemma calculate_value_fails_above_max :
  0 < 1073741819 /\ CInt.in_range 1073741819 /\
  CInt.INT_MAX < (1073741819 + 5) * 2 /\
  snd (calculate 1073741819 "") <> Returned ((1073741819 + 5) * 2).
Proof.
  split; [lia |].
  split; [int_consts; lia |].
  split; [int_consts; lia |].
  discriminate.
Qed.

(** C4.  For every [x <= 0], [calculate x] stops the process at the check
    [x > 0], with nothing written, and returns no value. *)
Theorem calculate_nonpositive_aborts (x : Z) (out : string)
  (Hx : x <= 0) :
  calculate x out = (out, Aborted calculate_L33) /\
  (forall out' r, calculate x out <> (out', Returned r)).
Proof.
  rewrite calculate_rejects by exact Hx.
  split; [reflexivity |].
  intros out' r E. discriminate E.
Qed.

Lemma calculate_nonpositive_aborts_witness :
  0 <= 0 /\ calculate 0 "" = ("", Aborted calculate_L33).
Proof.
  split.
  - lia.
  - apply (calculate_nonpositive_aborts 0 ""). lia.
Defined.

(** C6 (as amended).  For every [x] with [0 < x <= 1073741818],
    [calculate x] returns a value above [x]: its check [result > x] holds
    and the run does not stop there. *)
Theorem calculate_postcondition (x : Z) (out : string)
  (Hx : 0 < x <= calculate_max) :
  (CInt.mul (x + 5) 2 >? x) = true /\
  (exists result, calculate x out = (out, Returned result) /\ result > x) /\
  (forall out', calculate x out <> (out', Aborted calculate_L38)).
Proof.
  split; [| split].
  - unfold CInt.mul. rewrite wrap_small by (int_consts; lia).
    apply gtb_true. lia.
  - exists ((x + 5) * 2). split; [apply calculate_returns; exact Hx | lia].
  - intros out' E. rewrite calculate_returns in E by exact Hx. discriminate E.
Qed.

Lemma calculate_postcondition_witness :
  0 < 10 <= calculate_max /\
  (exists result, calculate 10 "" = ("", Returned result) /\ result > 10).
Proof.
  assert (H : 0 < 10 <= calculate_max) by (int_consts; lia).
  split; [exact H |].
  destruct (calculate_postcondition 10 "" H) as (_ & Hret & _).
  exact Hret.
Defined.

(** C6, the claim as written fails: on the positive [int] [1073741819]
    [helper] returns [1073741824], the doubling wraps to [INT_MIN], the
    check [result > x] is false and [calculate] stops at it. *)
Lemma calculate_postcondition_fails_above_max :
  0 < 1073741819 /\ CInt.in_range 1073741819 /\
  helper 1073741819 "" = ("", Returned 1073741824) /\
  CInt.mul 1073741824 2 = CInt.INT_MIN /\
  (CInt.mul 1073741824 2 >? 1073741819) = false /\
  calculate 1073741819 "" = ("", Aborted calculate_L38).
Proof.
  split; [lia |].
  split; [int_consts; lia |].
  repeat split.
Qed.

(** C8.  [calculate] is a function of its argument alone: a call leaves the
    standard output exactly as it found it, and its outcome, the value
    returned or the assertion that stopped it, is the same from any two
    states of the process, so two calls on the same [x] return the same
    value. *)
Theorem calculate_pure (x : Z) (out1 out2 : string) :
  fst (calculate x out1) = out1 /\
  snd (calculate x out1) = snd (calculate x out2) /\
  (forall r, snd (calculate x out1) = Returned r ->
             calculate x out2 = (out2, Returned r)).
Proof.
  assert (E : forall out,
             calculate x out = (out, snd (calculate x EmptyString))).
  { intros out. unfold calculate, bind at 1 2 4 5, assert at 1 3.
    destruct (x >? 0); [| reflexivity].
    pose proof (helper_silent x out) as Hs.
    pose proof (helper_silent x EmptyString) as Hs0.
    pose proof (helper_outcome_fixed x out EmptyString) as Ho.
    destruct (helper x out) as [o [temp | site]];
      destruct (helper x EmptyString) as [o0 [temp0 | site0]];
      simpl in Hs, Hs0, Ho; subst; try discriminate Ho.
    - inversion Ho; subst.
      unfold bind, assert, ret.
      destruct (CInt.mul temp0 2 >? x); reflexivity.
    - inversion Ho; subst. reflexivity. }
  rewrite (E out1), (E out2). simpl.
  split; [reflexivity |].
  split; [reflexivity |].
  intros r Hr. rewrite Hr. reflexivity.
Qed.

(** C9 (as amended).  For every [x] with [0 < x <= 1073741818],
    [calculate x] returns the even number [2 * (x + 5)]. *)
Theorem calculate_even (x : Z) (out : string)
  (Hx : 0 < x <= calculate_max) :
  exists r, calculate x out = (out, Returned r) /\
            r = 2 * (x + 5) /\ Z.even r = true.
Proof.
  exists ((x + 5) * 2).
  split; [apply calculate_returns; exact Hx |].
  split; [lia |].
  rewrite Z.mul_comm, Z.even_mul. reflexivity.
Qed.

Lemma calculate_even_witness :
  0 < 10 <= calculate_max /\
  (exists r, calculate 10 "" = ("", Returned r) /\
             r = 2 * (10 + 5) /\ Z.even r = true).
Proof.
  split.
  - int_consts. lia.
  - apply (calculate_even 10 ""). int_consts. lia.
Defined.

(** C9, the claim as written fails: on the positive [int] [2^30]
    [calculate] returns no value at all, even or odd. *)
Lemma calculate_even_fails_at_2_30 :
  0 < 1073741824 /\ CInt.in_range 1073741824 /\
  ~ (exists out' r, calculate 1073741824 "" = (out', Returned r)).
Proof.
  split; [lia |].
  split; [int_consts; lia |].
  intros (out' & r & E). discriminate E.
Qed.

(** C10 (as amended).  [helper] is strictly increasing on the [int]s up to
    [INT_MAX - 5], and [calculate] on the arguments from [1] to
    [1073741818]: there both calls return, and the value for the smaller
    argument is the smaller one. *)
Theorem helper_calculate_monotone (x y : Z) (out : string)
  (Hxy : x < y) :
  (CInt.INT_MIN <= x -> y <= helper_max ->
   exists a b, helper x out = (out, Returned a) /\
               helper y out = (out, Returned b) /\ a < b) /\
  (0 < x -> y <= calculate_max ->
   exists a b, calculate x out = (out, Returned a) /\
               calculate y out = (out, Returned b) /\ a < b).
Proof.
  split.
  - intros Hlo Hhi. exists (x + 5), (y + 5).
    split; [apply helper_returns; lia |].
    split; [apply helper_returns; lia | lia].
  - intros Hlo Hhi. exists ((x + 5) * 2), ((y + 5) * 2).
    split; [apply calculate_returns; lia |].
    split; [apply calculate_returns; lia | lia].
Qed.

Lemma helper_calculate_monotone_witness :
  1 < 2 /\
  (exists a b, helper 1 "" = ("", Returned a) /\
               helper 2 "" = ("", Returned b) /\ a < b) /\
  (exists a b, calculate 1 "" = ("", Returned a) /\
               calculate 2 "" = ("", Returned b) /\ a < b).
Proof.
  assert (H : 1 < 2) by lia.
  split; [exact H |].
  destruct (helper_calculate_monotone 1 2 "" H) as [Hh Hc].
  split.
  - apply Hh; int_consts; lia.
  - apply Hc; int_consts; lia.
Defined.

(** C10, the claim as written fails: [1 < INT_MAX] are positive [int]s,
    yet neither [helper] nor [calculate] returns a value on [INT_MAX], so
    there is none to stand above the value for [1]. *)
Lemma monotone_fails_at_INT_MAX :
  0 < 1 /\ 1 < 2147483647 /\
  CInt.in_range 1 /\ CInt.in_range 2147483647 /\
  ~ (exists a b oa ob, helper 1 "" = (oa, Returned a) /\
                       helper 2147483647 "" = (ob, Returned b) /\ a < b) /\
  ~ (exists a b oa ob, calculate 1 "" = (oa, Returned a) /\
                       calculate 2147483647 "" = (ob, Returned b) /\ a < b).
Proof.
  split; [lia |]. split; [lia |].
  split; [int_consts; lia |]. split; [int_consts; lia |].
  split.
  - intros (a & b & oa & ob & _ & E & _). discriminate E.
  - intros (a & b & oa & ob & _ & E & _). discriminate E.
Qed.

(** ** display and main *)

(** C7.  [display] writes its line before it checks: for every negative
    [value] the line [Result: value] and a line feed are appended to the
    standard output, and only then the run stops at [value >= 0]. *)
Theorem display_prints_before_check (value : Z) (out : string)
  (Hneg : value < 0) :
  printf_Result value out
    = (out ++ "Result: " ++ format_d value ++ newline, Returned tt) /\
  display value out
    = (out ++ "Result: " ++ format_d value ++ newline, Aborted display_L63).
Proof.
  split; [reflexivity |].
  unfold display, bind, printf_Result, assert.
  rewrite geb_false by exact Hneg. reflexivity.
Qed.

Lemma display_prints_before_check_witness :
  -1 < 0 /\
  display (-1) "" = ("Result: -1" ++ newline, Aborted display_L63).
Proof.
  split.
  - lia.
  - apply (display_prints_before_check (-1) ""). lia.
Defined.

(** C2.  The run of [main] from an empty standard output writes the one
    line [Result: 30], ended by a line feed, and returns the exit code 0;
    from any earlier output it appends that line and nothing else. *)
Theorem main_output :
  main "" = ("Result: 30" ++ newline, Returned 0) /\
  (forall out, main out = (out ++ "Result: 30" ++ newline, Returned 0)).
Proof.
  split; [reflexivity |].
  intros out. unfold main, bind at 1.
  rewrite calculate_returns by (int_consts; lia).
  reflexivity.
Qed.

(** * Further properties of the four functions *)

(** ** Text of the printed line *)

Lemma append_cancel_l (p a b : string) : p ++ a = p ++ b -> a = b.
Proof.
  induction p as [| c p IH]; simpl; intros E.
  - exact E.
  - inversion E. apply IH. assumption.
Qed.

Lemma append_cancel_last (c : ascii) (a b : string) :
  a ++ String c EmptyString = b ++ String c EmptyString -> a = b.
Proof.
  revert b. induction a as [| x a IH]; intros [| y b] E; simpl in E.
  - reflexivity.
  - inversion E as [[Hc Hb]]. destruct b; discriminate Hb.
  - inversion E as [[Hc Ha]]. destruct a; discriminate Ha.
  - inversion E as [[Hc Hab]]. f_equal. apply IH. exact Hab.
Qed.

(** The digits written for [%d] can be read back: the text determines the
    number. *)
Lemma format_d_read_back (value : Z) :
  NilZero.int_of_string (format_d value) = Some (Z.to_int value).
Proof.
  unfold format_d. apply NilZero.isi.
  - destruct value as [| q | q]; simpl; try discriminate.
    intros E. inversion E as [E']. exact (Unsigned.to_uint_nonnil q E').
  - destruct value as [| q | q]; simpl; try discriminate.
    intros E. inversion E as [E']. exact (Unsigned.to_uint_nonnil q E').
Qed.

Lemma format_d_inj (a b : Z) : format_d a = format_d b -> a = b.
Proof.
  intros E. apply DecimalZ.to_int_inj.
  pose proof (format_d_read_back a) as Ha.
  pose proof (format_d_read_back b) as Hb.
  rewrite E in Ha. rewrite Ha in Hb. inversion Hb. reflexivity.
Qed.

(** ** calculate on the whole of [int] *)

(** X1.  On every [int] the outcome of [calculate] is fixed by the range
    of its argument: the check [x > 0] fails up to [0]; the double of
    [x + 5] is returned from [1] to [1073741818]; the check [result > x]
    fails from there to [INT_MAX - 5], where the product overflows; and
    above that [helper]'s own check fails first.  Nothing is written in
    any of the four cases. *)
Theorem calculate_outcome_by_range (x : Z) (out : string)
  (Hx : CInt.in_range x) :
  calculate x out =
  (out,
   if (x <=? 0)%Z then Aborted calculate_L33
   else if (x <=? calculate_max)%Z then Returned ((x + 5) * 2)
   else if (x <=? helper_max)%Z then Aborted calculate_L38
   else Aborted helper_L51).
Proof.
  destruct (Z.leb_spec x 0) as [H0 | H0].
  { apply calculate_rejects. exact H0. }
  destruct (Z.leb_spec x calculate_max) as [H1 | H1].
  { apply calculate_returns. lia. }
  destruct (Z.leb_spec x helper_max) as [H2 | H2].
  { apply calculate_overflows. lia. }
  apply calculate_helper_overflows. int_consts. lia.
Qed.

Lemma calculate_outcome_by_range_witness :
  CInt.in_range 2147483647 /\
  calculate 2147483647 "" = ("", Aborted helper_L51).
Proof.
  split.
  - int_consts. lia.
  - apply (calculate_outcome_by_range 2147483647 ""). int_consts. lia.
Defined.

(** X2.  A value that [calculate] returns on an [int] [x] is the exact
    [(x + 5) * 2], never a wrapped sum or product; it is an [int] above
    [x], and it is [x * 2 + 10], so never the [x * 2] that the comment at
    the head of the function gives as its postcondition. *)
Theorem calculate_returns_exact_value (x r : Z) (out out' : string)
  (Hx : CInt.in_range x)
  (Hret : calculate x out = (out', Returned r)) :
  r = (x + 5) * 2 /\ CInt.in_range r /\ x < r /\
  r = x * 2 + 10 /\ r <> x * 2.
Proof.
  destruct (calculate_returned_value x r out out' Hx Hret) as (Hr & Hv & _).
  subst r. int_consts. lia.
Qed.

Lemma calculate_returns_exact_value_witness :
  CInt.in_range 10 /\ calculate 10 "" = ("", Returned 30) /\
  30 = (10 + 5) * 2 /\ CInt.in_range 30 /\ 10 < 30 /\
  30 = 10 * 2 + 10 /\ 30 <> 10 * 2.
Proof.
  assert (Hx : CInt.in_range 10) by (int_consts; lia).
  assert (Hret : calculate 10 "" = ("", Returned 30)) by reflexivity.
  split; [exact Hx |]. split; [exact Hret |].
  exact (calculate_returns_exact_value 10 30 "" "" Hx Hret).
Defined.

(** ** display on every value *)

Lemma display_text (value : Z) (out : string) :
  fst (display value out) = out ++ "Result: " ++ format_d value ++ newline.
Proof.
  unfold display, bind, printf_Result, assert.
  destruct (value >=? 0); reflexivity.
Qed.


(** X4.  The line that [display] writes tells the value: two calls from
    the same standard output that leave the same text were given the same
    [value]. *)
Theorem display_line_determines_value (a b : Z) (out : string)
  (Hsame : fst (display a out) = fst (display b out)) :
  a = b.
Proof.
  rewrite !display_text in Hsame.
  apply append_cancel_l in Hsame.
  apply (append_cancel_l "Result: ") in Hsame.
  apply append_cancel_last in Hsame.
  apply format_d_inj. exact Hsame.
Qed.

Lemma display_line_determines_value_witness :
  fst (display 30 "") = fst (display 30 "") /\ 30 = 30.
Proof.
  assert (H : fst (display 30 "") = fst (display 30 "")) by reflexivity.
  split; [exact H |].
  exact (display_line_determines_value 30 30 "" H).
Defined.

(** ** The calls of main on any argument *)

(** X5.  The statements of [main], with any [int] [x] where [main] has
    [10]: when [calculate] returns, [display] and the last check of [main]
    cannot fail on its value, one line with [(x + 5) * 2] is written and
    the exit code is 0; otherwise the run stops inside [calculate] or
    [helper] with nothing written.  The checks [value >= 0] of [display]
    and [result > 0] of [main] are never the ones that stop it. *)
Theorem calculate_then_display (x : Z) (out : string)
  (Hx : CInt.in_range x) :
  let body :=
    result <- calculate x ;;
    display result ;;
    assert main_L22 (result >? 0) ;;
    ret 0 in
  (0 < x <= calculate_max ->
   body out
     = (out ++ "Result: " ++ format_d ((x + 5) * 2) ++ newline, Returned 0)) /\
  (forall out' code, body out = (out', Returned code) ->
     0 < x <= calculate_max /\ code = 0) /\
  (forall out' site, body out = (out', Aborted site) ->
     out' = out /\
     (site = calculate_L33 \/ site = calculate_L38 \/ site = helper_L51)).
Proof.
  intros body.
  assert (Hok : 0 < x <= calculate_max ->
                body out = (out ++ "Result: " ++ format_d ((x + 5) * 2)
                                ++ newline, Returned 0)).
  { intros H. unfold body, bind at 1.
    rewrite calculate_returns by exact H.
    unfold bind at 1. rewrite display_returns by lia.
    unfold bind, assert, ret. rewrite gtb_true by lia. reflexivity. }
  assert (Hstop : forall site, calculate x out = (out, Aborted site) ->
                               body out = (out, Aborted site)).
  { intros site C. unfold body, bind at 1. rewrite C. reflexivity. }
  split; [exact Hok |].
  destruct (calculate_cases x out Hx)
    as [[H C] | [[H C] | [[H C] | [H C]]]].
  - rewrite (Hstop _ C). split.
    + intros out' code E. discriminate E.
    + intros out' site E. inversion E. split; [reflexivity | tauto].
  - rewrite (Hok H). split.
    + intros out' code E. inversion E. split; [exact H | reflexivity].
    + intros out' site E. discriminate E.
  - rewrite (Hstop _ C). split.
    + intros out' code E. discriminate E.
    + intros out' site E. inversion E. split; [reflexivity | tauto].
  - rewrite (Hstop _ C). split.
    + intros out' code E. discriminate E.
    + intros out' site E. inversion E. split; [reflexivity | tauto].
Qed.

Lemma calculate_then_display_witness :
  CInt.in_range 10 /\
  main "" = ("" ++ "Result: " ++ format_d ((10 + 5) * 2) ++ newline,
             Returned 0).
Proof.
  assert (Hx : CInt.in_range 10) by (int_consts; lia).
  split; [exact Hx |].
  destruct (calculate_then_display 10 "" Hx) as (Hok & _).
  apply Hok. int_consts. lia.
Defined.
